(** * Nova AI Writing Coach (src/app.py): a shallow embedding in Rocq

    Text is modelled as Stdlib [string] (ASCII characters).  The character
    classes of Python's [re] and [str.split] are restricted to their ASCII
    members: [\s] and [str.split()] both use [str.isspace], which on ASCII
    holds for 9-13 and 28-32.  Python floats of the density computation are
    modelled as exact rationals [Q]. *)

From Stdlib Require Import Strings.String Strings.Ascii Lists.List Bool.Bool.
From Stdlib Require Import Arith.Arith ZArith QArith Lia.
From Stdlib Require Import Numbers.DecimalString.
Import ListNotations.
Open Scope nat_scope.
Open Scope string_scope.

(** ** Characters and strings *)

Definition is_alpha (c : ascii) : bool :=
  let n := nat_of_ascii c in
  (Nat.leb 65 n && Nat.leb n 90) || (Nat.leb 97 n && Nat.leb n 122).

Definition is_digit (c : ascii) : bool :=
  let n := nat_of_ascii c in Nat.leb 48 n && Nat.leb n 57.

(** [str.isspace] on ASCII: \t \n \v \f \r, the separators \x1c-\x1f, and space. *)
Definition is_space (c : ascii) : bool :=
  existsb (Nat.eqb (nat_of_ascii c)) [9; 10; 11; 12; 13; 28; 29; 30; 31; 32]%nat.

Definition chr (n : nat) : string := String (ascii_of_nat n) EmptyString.
Definition nl : string := chr 10.
Definition dq : string := chr 34.

Definition is_empty (s : string) : bool :=
  match s with EmptyString => true | String _ _ => false end.

Fixpoint all_chars (p : ascii -> bool) (s : string) : bool :=
  match s with
  | EmptyString => true
  | String c t => p c && all_chars p t
  end.

Fixpoint has_char (x : ascii) (s : string) : bool :=
  match s with
  | EmptyString => false
  | String c t => Ascii.eqb c x || has_char x t
  end.

Definition starts_with (p : ascii -> bool) (s : string) : bool :=
  match s with EmptyString => false | String c _ => p c end.

Fixpoint skip_while (p : ascii -> bool) (s : string) : string :=
  match s with
  | EmptyString => EmptyString
  | String c t => if p c then skip_while p t else s
  end.

Fixpoint take_while (p : ascii -> bool) (s : string) : string :=
  match s with
  | EmptyString => EmptyString
  | String c t => if p c then String c (take_while p t) else EmptyString
  end.

(** [s.startswith(pre)], returning what follows the prefix. *)
Fixpoint strip_prefix (pre s : string) : option string :=
  match pre, s with
  | EmptyString, _ => Some s
  | String a pre', String b s' => if Ascii.eqb a b then strip_prefix pre' s' else None
  | String _ _, EmptyString => None
  end.

(** Python's [needle in s] for strings. *)
Fixpoint contains (needle s : string) : bool :=
  match strip_prefix needle s with
  | Some _ => true
  | None => match s with EmptyString => false | String _ t => contains needle t end
  end.

(** [t = body ++ ")"]: returns [body]. *)
Fixpoint strip_close (t : string) : option string :=
  match t with
  | EmptyString => None
  | String c EmptyString => if Ascii.eqb c ")" then Some EmptyString else None
  | String c u => option_map (String c) (strip_close u)
  end.

(** Splitting at every occurrence of a separator character ([s.split(",")]). *)
Fixpoint split_on (sep : ascii) (s : string) : list string :=
  match s with
  | EmptyString => [EmptyString]
  | String c t =>
      if Ascii.eqb c sep then EmptyString :: split_on sep t
      else match split_on sep t with
           | [] => [String c EmptyString]
           | w :: ws => String c w :: ws
           end
  end.

(** Python's [text.split()]: maximal runs of non-whitespace, in order.
    [cur] is the word being read. *)
Fixpoint py_split_aux (s cur : string) : list string :=
  match s with
  | EmptyString => if is_empty cur then [] else [cur]
  | String c t =>
      if is_space c then
        (if is_empty cur then py_split_aux t EmptyString
         else cur :: py_split_aux t EmptyString)
      else py_split_aux t (cur ++ String c EmptyString)
  end.

Definition py_split (s : string) : list string := py_split_aux s EmptyString.

(** Python's [str(n)] for a non-negative int. *)
Definition py_str_nat (n : nat) : string := NilEmpty.string_of_uint (Nat.to_uint n).

(** Python's [str(b)] for a bool. *)
Definition py_str_bool (b : bool) : string := if b then "True" else "False".

(** ** The regular expressions of [detect_citations] *)
Module Regex.

(** Whole-string match of [[A-Za-z]+]. *)
Definition alpha1 (s : string) : bool := negb (is_empty s) && all_chars is_alpha s.

(** [\s*[A-Za-z]+]: the letters cannot be whitespace, so greedy [\s*] is exact. *)
Definition ws_alpha1 (s : string) : bool := alpha1 (skip_while is_space s).

(** [\s*\d{4}]. *)
Definition ws_digits4 (s : string) : bool :=
  let d := skip_while is_space s in Nat.eqb (String.length d) 4 && all_chars is_digit d.

(** The parts after the first comma of [(?:,\s*[A-Za-z]+)*,\s*\d{4}]:
    every part but the last is [\s*[A-Za-z]+], the last is [\s*\d{4}]. *)
Fixpoint apa_tail (parts : list string) : bool :=
  match parts with
  | [] => false
  | x :: rest =>
      match rest with
      | [] => ws_digits4 x
      | _ :: _ => ws_alpha1 x && apa_tail rest
      end
  end.

(** The inside of the parentheses of
    [\([A-Za-z]+(?:,\s*[A-Za-z]+)*,\s*\d{4}\)].  No sub-pattern but the
    literal [,] matches a comma, so the commas of the text are exactly the
    pattern's commas and splitting at them is exact. *)
Definition apa_body (b : string) : bool :=
  match split_on "," b with
  | [] => false
  | first :: rest => alpha1 first && apa_tail rest
  end.

(** Full match of [apa_pattern]. *)
Definition apa_full (s : string) : bool :=
  match s with
  | EmptyString => false
  | String c t =>
      Ascii.eqb c "(" &&
      match strip_close t with Some b => apa_body b | None => false end
  end.

(** The inside of [\([A-Za-z]+\s+\d+\)]; letters, whitespace and digits
    are disjoint classes, so greedy splitting is exact. *)
Definition mla_body (b : string) : bool :=
  starts_with is_alpha b &&
  let r := skip_while is_alpha b in
  starts_with is_space r &&
  let d := skip_while is_space r in
  negb (is_empty d) && all_chars is_digit d.

(** Full match of [mla_pattern]. *)
Definition mla_full (s : string) : bool :=
  match s with
  | EmptyString => false
  | String c t =>
      Ascii.eqb c "(" &&
      match strip_close t with Some b => mla_body b | None => false end
  end.

(** All prefixes of [s], shortest first. *)
Fixpoint prefixes (s : string) : list string :=
  EmptyString :: match s with
                 | EmptyString => []
                 | String c t => map (String c) (prefixes t)
                 end.

(** The match of a pattern anchored at the start of [s].  Every match of
    the APA and MLA patterns ends at the first [)] after its start, so at
    most one prefix matches and it is the one [re] finds. *)
Definition match_at (full : string -> bool) (s : string) : option string :=
  find full (prefixes s).

Definition apa_at : string -> option string := match_at apa_full.
Definition mla_at : string -> option string := match_at mla_full.

(** [https?://[^\s]+], greedy: the scheme, then the longest non-empty run
    of non-whitespace. *)
Definition url_at (s : string) : option string :=
  let with_scheme (scheme : string) (rest : string) :=
    let w := take_while (fun c => negb (is_space c)) rest in
    if is_empty w then None else Some (scheme ++ w) in
  match strip_prefix "https://" s with
  | Some rest => with_scheme "https://" rest
  | None =>
      match strip_prefix "http://" s with
      | Some rest => with_scheme "http://" rest
      | None => None
      end
  end.

(** [re.findall]: scan left to right; after a match, resume right after
    it ([skip] characters still to pass over), otherwise at the next
    position. *)
Fixpoint scan (m : string -> option string) (s : string) (skip : nat) {struct s}
  : list string :=
  match skip with
  | S k => match s with EmptyString => [] | String _ t => scan m t k end
  | O =>
      let here := m s in
      let rest :=
        match s with
        | EmptyString => []
        | String _ t =>
            scan m t (match here with Some w => String.length w - 1 | None => 0 end)
        end in
      match here with Some w => w :: rest | None => rest end
  end.

Definition findall (m : string -> option string) (s : string) : list string :=
  scan m s 0.

End Regex.

(** ** Citation Analyzer: [detect_citations] *)
Module Citation.
Import Regex.

Record CitationReport := {
  apa_count : nat;
  mla_count : nat;
  url_count : nat;
  has_recent_sources : bool;
  citation_density : Q;
  total_citations : nat
}.

Definition apa_citations (text : string) : list string := findall apa_at text.
Definition mla_citations (text : string) : list string := findall mla_at text.
Definition urls (text : string) : list string := findall url_at text.

Definition detect_citations (text : string) : CitationReport :=
  let apa := apa_citations text in
  let mla := mla_citations text in
  let us := urls text in
  let has_recent := existsb (contains "202") apa in
  let density : Q :=
    (inject_Z (Z.of_nat (List.length apa + List.length mla))
     / inject_Z (Z.of_nat (Nat.max (List.length (py_split text)) 1)) * inject_Z 1000)%Q in
  {| apa_count := List.length apa;
     mla_count := List.length mla;
     url_count := List.length us;
     has_recent_sources := has_recent;
     citation_density := density;
     total_citations := List.length apa + List.length mla |}.

End Citation.

(** ** Python values, exceptions, and the Completion Service boundary *)
Module Py.

Local Set Warnings "-register-all".

(** Values that cross the JSON / OpenAI response boundary.  JSON numbers
    are modelled as integers. *)
Inductive jvalue :=
| JNull
| JBool (b : bool)
| JNum (z : Z)
| JStr (s : string)
| JArr (l : list jvalue)
| JObj (kvs : list (string * jvalue)).

(** Exceptions that can occur; all are subclasses of [Exception]. *)
Inductive exn :=
| APIConnectionError
| AuthenticationError
| RateLimitError
| ServiceTimeout
| InvalidRequestError
| APIError
| KeyError
| IndexError
| TypeError
| AttributeError
| JSONDecodeError.

Inductive result (A : Type) := Ok (a : A) | Exc (e : exn).
Arguments Ok {A} a.
Arguments Exc {A} e.

Definition rbind {A B} (r : result A) (k : A -> result B) : result B :=
  match r with Ok a => k a | Exc e => Exc e end.

(** A Python [dict] built from key/value pairs: the last binding wins. *)
Fixpoint dict_lookup {A} (k : string) (kvs : list (string * A)) : option A :=
  match kvs with
  | [] => None
  | (k', v) :: rest =>
      match dict_lookup k rest with
      | Some v' => Some v'
      | None => if String.eqb k k' then Some v else None
      end
  end.

(** [v[k]] with a string key. *)
Definition getitem_key (v : jvalue) (k : string) : result jvalue :=
  match v with
  | JObj kvs => match dict_lookup k kvs with Some x => Ok x | None => Exc KeyError end
  | _ => Exc TypeError
  end.

(** [v[i]] with a non-negative int index. *)
Definition getitem_idx (v : jvalue) (i : nat) : result jvalue :=
  match v with
  | JArr l => match nth_error l i with Some x => Ok x | None => Exc IndexError end
  | JStr s => match String.get i s with
              | Some c => Ok (JStr (String c EmptyString))
              | None => Exc IndexError
              end
  | JObj _ => Exc KeyError
  | _ => Exc TypeError
  end.

(** [v.get(k, default)]; only dicts have [get]. *)
Definition py_get (v : jvalue) (k : string) (default : jvalue) : result jvalue :=
  match v with
  | JObj kvs => Ok (match dict_lookup k kvs with Some x => x | None => default end)
  | _ => Exc AttributeError
  end.

(** [iter(v)]: lists yield their items, strings their characters, dicts
    their keys; other values are not iterable. *)
Definition py_iter (v : jvalue) : result (list jvalue) :=
  match v with
  | JArr l => Ok l
  | JStr s => Ok (map (fun c => JStr (String c EmptyString)) (list_ascii_of_string s))
  | JObj kvs => Ok (map (fun kv => JStr (fst kv)) kvs)
  | _ => Exc TypeError
  end.

(** [bool(v)]. *)
Definition py_truthy (v : jvalue) : bool :=
  match v with
  | JNull => false
  | JBool b => b
  | JNum z => negb (Z.eqb z 0)
  | JStr s => negb (is_empty s)
  | JArr l => negb (match l with [] => true | _ => false end)
  | JObj kvs => negb (match kvs with [] => true | _ => false end)
  end.

Definition hex_digit (n : nat) : string :=
  if Nat.ltb n 10 then chr (48 + n) else chr (87 + n).

(** One character as [json.dumps] (ensure_ascii) writes it inside a string. *)
Definition json_escape_char (c : ascii) : string :=
  let n := nat_of_ascii c in
  if Nat.eqb n 34 then chr 92 ++ dq
  else if Nat.eqb n 92 then chr 92 ++ chr 92
  else if Nat.eqb n 8 then chr 92 ++ "b"
  else if Nat.eqb n 12 then chr 92 ++ "f"
  else if Nat.eqb n 10 then chr 92 ++ "n"
  else if Nat.eqb n 13 then chr 92 ++ "r"
  else if Nat.eqb n 9 then chr 92 ++ "t"
  else if Nat.leb 32 n && Nat.leb n 126 then String c EmptyString
  else chr 92 ++ "u00" ++ hex_digit (n / 16) ++ hex_digit (n mod 16).

Fixpoint json_escape (s : string) : string :=
  match s with
  | EmptyString => EmptyString
  | String c t => json_escape_char c ++ json_escape t
  end.

Definition json_string (s : string) : string := dq ++ json_escape s ++ dq.

(** [json.dumps(v)] with its default separators [", "] and [": "]. *)
Fixpoint json_dumps (v : jvalue) : string :=
  match v with
  | JNull => "null"
  | JBool b => if b then "true" else "false"
  | JNum z => NilEmpty.string_of_int (Z.to_int z)
  | JStr s => json_string s
  | JArr l =>
      "[" ++ (fix items (l : list jvalue) : string :=
                match l with
                | [] => EmptyString
                | x :: r =>
                    json_dumps x ++
                    match r with [] => EmptyString | _ :: _ => ", " ++ items r end
                end) l ++ "]"
  | JObj kvs =>
      "{" ++ (fix items (kvs : list (string * jvalue)) : string :=
                match kvs with
                | [] => EmptyString
                | (k, x) :: r =>
                    json_string k ++ ": " ++ json_dumps x ++
                    match r with [] => EmptyString | _ :: _ => ", " ++ items r end
                end) kvs ++ "}"
  end.

(** A chat message and an [openai.ChatCompletion.create] request. *)
Record message := { role : string; content : string }.

Record request := {
  model : string;
  messages : list message;
  temperature : Q;
  max_tokens : nat
}.

(** Observable effects: a call to the Completion Service with the
    [openai.api_key] in force, and a warning shown by the page. *)
Inductive event :=
| EvCall (api_key : option string) (req : request)
| EvWarning (msg : string).

(** Computations that record events and may raise. *)
Definition M (A : Type) : Type := (list event * result A)%type.

Definition ret {A} (a : A) : M A := ([], Ok a).

Definition raise_from {A} (r : result A) : M A := ([], r).

Definition bind {A B} (m : M A) (k : A -> M B) : M B :=
  match m with
  | (tr, Ok a) => let (tr', r) := k a in (app tr tr', r)
  | (tr, Exc e) => (tr, Exc e)
  end.

(** [try: m except Exception: h(e)]. *)
Definition try_except {A} (m : M A) (h : exn -> A) : M A :=
  match m with
  | (tr, Ok a) => (tr, Ok a)
  | (tr, Exc e) => (tr, Ok (h e))
  end.

End Py.

Declare Scope py_scope.
Notation "x <- m ;; k" := (Py.bind m (fun x => k))
  (at level 61, m at next level, right associativity) : py_scope.

(** ** Feedback Dispatcher: [generate_socratic_questions] and
    [analyze_citations_with_ai] *)
Module Dispatcher.
Import Py Citation.
Local Open Scope py_scope.

Definition quoted (s : string) : string := dq ++ s ++ dq.

(** The f-string [system_prompt] of [generate_socratic_questions]. *)
Definition socratic_system_prompt (focus_area : string) : string :=
  String.concat nl [
    "You are Nova, an AI writing coach that uses Socratic questioning to guide students to insights about their own writing. ";
    EmptyString;
    "Your role is to ask 3-4 thoughtful questions that help the student discover areas for improvement in their writing, specifically focusing on " ++ focus_area ++ ".";
    EmptyString;
    "Guidelines:";
    "- Ask questions that lead students to self-discovery rather than giving direct answers";
    "- Use " ++ quoted "What if..." ++ " " ++ quoted "How might..." ++ " "
      ++ quoted "Why do you think..." ++ " question starters";
    "- Make questions specific to their actual text";
    "- Focus on helping them think critically about their choices";
    "- Keep questions accessible but intellectually engaging";
    "- End with one question that pushes them to consider their audience/purpose";
    EmptyString;
    "Return your response as a JSON object with this structure:";
    "{";
    "    " ++ quoted "questions" ++ ": [";
    "        {" ++ quoted "question" ++ ": " ++ quoted "Your question here" ++ ", "
      ++ quoted "purpose" ++ ": "
      ++ quoted "Brief explanation of what this question helps them discover" ++ "},";
    "        // 2-3 more questions";
    "    ],";
    "    " ++ quoted "reflection_prompt" ++ ": "
      ++ quoted "A final broader question about their writing goals";
    "}";
    EmptyString].

Definition socratic_request (text focus_area : string) : request :=
  {| model := "gpt-4";
     messages :=
       [ {| role := "system"; content := socratic_system_prompt focus_area |};
         {| role := "user";
            content := "Here is the student's writing:" ++ nl ++ nl ++ text |} ];
     temperature := 7 # 10;
     max_tokens := 600 |}.

(** [openai.ChatCompletion.create(...)] with [openai.api_key] in force:
    the call is recorded, and the service answers or raises. *)
Definition chat_completion_create
    (completion : option string -> request -> result jvalue)
    (api_key : option string) (req : request) : M jvalue :=
  ([EvCall api_key req], completion api_key req).

(** [response["choices"][0]["message"]["content"]]. *)
Definition extract_content (response : jvalue) : result jvalue :=
  rbind (getitem_key response "choices") (fun choices =>
  rbind (getitem_idx choices 0) (fun choice =>
  rbind (getitem_key choice "message") (fun msg =>
  getitem_key msg "content"))).

Definition qp (question purpose : string) : jvalue :=
  JObj [("question", JStr question); ("purpose", JStr purpose)].

(** The object serialised by the [except] branch of
    [generate_socratic_questions]. *)
Definition socratic_fallback : jvalue :=
  JObj [
    ("questions", JArr [
      qp "What is the main argument you're trying to make in this piece?"
         "Helps identify thesis clarity";
      qp "Who is your intended audience and how does that shape your word choices?"
         "Develops audience awareness";
      qp "What evidence best supports your strongest point?"
         "Encourages critical evaluation of support"]);
    ("reflection_prompt",
      JStr "How well does this piece achieve what you set out to accomplish?")].

Definition generate_socratic_questions
    (completion : option string -> request -> result jvalue)
    (api_key : option string) (text focus_area : string) : M jvalue :=
  try_except
    (response <- chat_completion_create completion api_key (socratic_request text focus_area) ;;
     raise_from (extract_content response))
    (fun _ => JStr (json_dumps socratic_fallback)).

Definition citation_system_prompt : string :=
  String.concat nl [
    "You are Nova, an AI writing coach specializing in research and citation analysis. Analyze the student's use of sources and citations.";
    EmptyString;
    "Focus on:";
    "- Integration of sources into arguments (not just citation format)";
    "- Variety and credibility of sources";
    "- How well sources support the argument";
    "- Opportunities for stronger evidence";
    EmptyString;
    "Provide specific, actionable feedback in a supportive tone. If you see citation attempts, acknowledge the effort while suggesting improvements.";
    EmptyString;
    "Keep response under 200 words and be encouraging but honest."].

(** The f-string [citation_context]. *)
Definition citation_context (citation_data : CitationReport) : string :=
  String.concat nl [
    EmptyString;
    "    Citation Analysis:";
    "    - Total citations found: " ++ py_str_nat (total_citations citation_data);
    "    - APA style citations: " ++ py_str_nat (apa_count citation_data);
    "    - MLA style citations: " ++ py_str_nat (mla_count citation_data);
    "    - URLs found: " ++ py_str_nat (url_count citation_data);
    "    - Recent sources detected: " ++ py_str_bool (has_recent_sources citation_data);
    "    "].

(** The user-role message of [analyze_citations_with_ai]. *)
Definition citation_user_content (text : string) (citation_data : CitationReport) : string :=
  citation_context citation_data ++ nl ++ nl ++ "Student's text:" ++ nl ++ text.

Definition citation_request (text : string) (citation_data : CitationReport) : request :=
  {| model := "gpt-4";
     messages :=
       [ {| role := "system"; content := citation_system_prompt |};
         {| role := "user"; content := citation_user_content text citation_data |} ];
     temperature := 6 # 10;
     max_tokens := 300 |}.

Definition citation_fallback : string :=
  "I notice you're working on incorporating sources into your writing. Consider how each source specifically supports your main argument and whether you're explaining the connection clearly for your readers.".

Definition analyze_citations_with_ai
    (completion : option string -> request -> result jvalue)
    (api_key : option string) (text : string) (citation_data : CitationReport) : M jvalue :=
  try_except
    (response <- chat_completion_create completion api_key (citation_request text citation_data) ;;
     raise_from (extract_content response))
    (fun _ => JStr citation_fallback).

End Dispatcher.

(** ** Display of the Socratic questions (the "Display Results" block) *)
Module Display.
Import Py.

(** What the page renders for the questions: one box per question and
    the "Final Reflection" box. *)
Inductive display_item :=
| DQuestion (i : nat) (question purpose : jvalue)
| DReflection (prompt : jvalue).

Definition qp (question purpose : string) : jvalue :=
  JObj [("question", JStr question); ("purpose", JStr purpose)].

(** The [except] branch of the parse step. *)
Definition fallback_questions : list jvalue :=
  [ qp "What is the strongest part of your argument and why?" "Identifies areas of strength";
    qp "Where might readers need more explanation or evidence?" "Highlights gaps in support";
    qp "How does this piece serve your reader's needs?" "Develops audience awareness" ].

Definition fallback_reflection : jvalue :=
  JStr "What would you change if you were writing this for a different audience?".

Section Parse.
(** [json.loads], the standard library's decoder: it returns the decoded
    value, or raises ([JSONDecodeError] on text that is not JSON,
    [TypeError] on a non-string). *)
Variable json_loads : jvalue -> result jvalue.

(** The bare [try/except] around [json.loads] and the two [.get] calls:
    any exception selects the fixed fallback. *)
Definition load_questions (questions_data : jvalue) : jvalue * jvalue :=
  match rbind (json_loads questions_data) (fun questions_json =>
        rbind (py_get questions_json "questions" (JArr [])) (fun questions =>
        rbind (py_get questions_json "reflection_prompt" (JStr EmptyString)) (fun rp =>
        Ok (questions, rp)))) with
  | Ok p => p
  | Exc _ => (JArr fallback_questions, fallback_reflection)
  end.

(** [for i, q in enumerate(questions, 1)]: each box reads [q['question']]
    and [q['purpose']]; this loop is outside any [try]. *)
Fixpoint render_questions (qs : list jvalue) (i : nat) : result (list display_item) :=
  match qs with
  | [] => Ok []
  | q :: rest =>
      rbind (getitem_key q "question") (fun question =>
      rbind (getitem_key q "purpose") (fun purpose =>
      rbind (render_questions rest (S i)) (fun items =>
      Ok (DQuestion i question purpose :: items))))
  end.

(** The question loop, then [if reflection_prompt:] the reflection box. *)
Definition render (questions reflection_prompt : jvalue) : result (list display_item) :=
  rbind (py_iter questions) (fun qs =>
  rbind (render_questions qs 1) (fun items =>
  Ok (app items (if py_truthy reflection_prompt then [DReflection reflection_prompt] else [])))).

Definition display_results (questions_data : jvalue) : result (list display_item) :=
  let (questions, reflection_prompt) := load_questions questions_data in
  render questions reflection_prompt.

End Parse.

(** What the fallback branch renders. *)
Definition fallback_display : list display_item :=
  [ DQuestion 1 (JStr "What is the strongest part of your argument and why?")
                (JStr "Identifies areas of strength");
    DQuestion 2 (JStr "Where might readers need more explanation or evidence?")
                (JStr "Highlights gaps in support");
    DQuestion 3 (JStr "How does this piece serve your reader's needs?")
                (JStr "Develops audience awareness");
    DReflection fallback_reflection ].

Definition reflection_of (kvs : list (string * jvalue)) : jvalue :=
  match dict_lookup "reflection_prompt" kvs with Some r => r | None => JStr EmptyString end.

Definition questions_of (kvs : list (string * jvalue)) : jvalue :=
  match dict_lookup "questions" kvs with Some q => q | None => JArr [] end.

Definition is_question (d : display_item) : bool :=
  match d with DQuestion _ _ _ => true | DReflection _ => false end.

Definition count_questions (ds : list display_item) : nat :=
  List.length (filter is_question ds).

Definition count_reflections (ds : list display_item) : nat :=
  List.length (filter (fun d => negb (is_question d)) ds).

(** A question entry as the prompt asks for it: an object with a
    [question] and a [purpose]. *)
Definition well_formed_question (q : jvalue) : Prop :=
  exists kvs x y, q = JObj kvs /\ dict_lookup "question" kvs = Some x
                  /\ dict_lookup "purpose" kvs = Some y.

End Display.

(** ** The page: the "Start Guided Analysis" button *)
Module App.
Import Py Citation Dispatcher.
Local Open Scope py_scope.

Record session := {
  analysis_complete : bool;
  questions_data : option jvalue;
  citation_feedback : option jvalue;
  citation_data : option CitationReport
}.

Definition initial_session : session :=
  {| analysis_complete := false; questions_data := None;
     citation_feedback := None; citation_data := None |}.

(** [str.strip()]. *)
Definition string_rev (s : string) : string :=
  string_of_list_ascii (rev (list_ascii_of_string s)).

Definition py_strip (s : string) : string :=
  string_rev (skip_while is_space (string_rev (skip_while is_space s))).

(** [openai.api_key = os.environ.get("OPENAI_API_KEY")]. *)
Definition read_api_key (env : list (string * string)) : option string :=
  dict_lookup "OPENAI_API_KEY" env.

(** The warning text (its leading emoji left out). *)
Definition empty_input_warning : string := "Please enter some text to analyze.".

Section Page.
Variable completion : option string -> request -> result jvalue.

(** One run of the script after the button is pressed: the key is read at
    import, then the button handler runs. *)
Definition start_guided_analysis (env : list (string * string))
    (user_input focus : string) (st : session) : M session :=
  let api_key := read_api_key env in
  if String.eqb (py_strip user_input) EmptyString then
    ([EvWarning empty_input_warning], Ok st)
  else
    let cd := detect_citations user_input in
    questions_response <- generate_socratic_questions completion api_key user_input focus ;;
    cf <- analyze_citations_with_ai completion api_key user_input cd ;;
    ret {| analysis_complete := true;
           questions_data := Some questions_response;
           citation_feedback := Some cf;
           citation_data := Some cd |}.

End Page.

Definition is_call (e : event) : bool :=
  match e with EvCall _ _ => true | EvWarning _ => false end.

End App.

(** ** Prompt Template Registry *)
Module Registry.
Import Py.

(** Modelled from the spec: the Prompt Template Registry of the app
    variants that are not part of src/ (section 4.2): a static mapping from
    writing-type labels to templates, looked up with a fall back to the
    designated default label ("Academic Paper"). *)
Record PromptTemplate := { persona : string; instruction_body : string }.

Definition DEFAULT_LABEL : string := "Academic Paper".

Section Lookup.
Variable TEMPLATES : list (string * PromptTemplate).

(** Modelled from the spec: the label's template when the label is
    registered, otherwise the template of [DEFAULT_LABEL]. *)
Definition get_template (label : string) : result PromptTemplate :=
  match dict_lookup label TEMPLATES with
  | Some t => Ok t
  | None =>
      match dict_lookup DEFAULT_LABEL TEMPLATES with
      | Some t => Ok t
      | None => Exc KeyError
      end
  end.

End Lookup.
End Registry.

(** ** Template-based Feedback Dispatcher *)
Module TemplateDispatcher.
Import Py Citation Registry.

(** Modelled from the spec: the request construction of the template-based
    Feedback Dispatcher of the app variants that are not part of src/
    (section 4.3). The note's content is the spec's (the citation count and
    a prompt to consider the quality of source integration); its wording and
    the separators between the parts are not given by the spec. *)
Definition citation_note (n : nat) : string :=
  "Note: this draft contains " ++ py_str_nat n
  ++ " citation(s). Consider the quality of source integration: how well each source supports the argument.".

(** Modelled from the spec: the appended part of the user-role message,
    present only when [total_citations > 0]. *)
Definition citation_suffix (cd : CitationReport) : string :=
  if Nat.ltb 0 (total_citations cd)
  then nl ++ nl ++ citation_note (total_citations cd)
  else EmptyString.

(** Modelled from the spec: the user-role message carries the draft text,
    then the template's instruction body, then the citation note. *)
Definition user_content (draft : string) (t : PromptTemplate) (cd : CitationReport) : string :=
  draft ++ nl ++ nl ++ instruction_body t ++ citation_suffix cd.

(** Modelled from the spec: the system-role message carries the template's
    persona, the user-role message the content above. *)
Definition dispatch_messages (draft : string) (t : PromptTemplate) (cd : CitationReport)
    : list message :=
  [ {| role := "system"; content := persona t |};
    {| role := "user"; content := user_content draft t cd |} ].

End TemplateDispatcher.

(** ** Concrete environments used to exercise the properties *)
Module Scenarios.
Import Py Display Registry.

(** A Completion Service that cannot be reached. *)
Definition unreachable_service : option string -> request -> result jvalue :=
  fun _ _ => Exc APIConnectionError.

(** A Completion Service whose answer has no [choices]. *)
Definition malformed_service : option string -> request -> result jvalue :=
  fun _ _ => Ok (JObj [("error", JStr "overloaded")]).

(** A Completion Service that rejects a request made without a key and
    answers otherwise. *)
Definition auth_checking_service : option string -> request -> result jvalue :=
  fun key _ =>
    match key with
    | None => Exc AuthenticationError
    | Some _ =>
        Ok (JObj [("choices",
                   JArr [JObj [("message", JObj [("content", JStr "Feedback")])]])])
    end.

(** A [json.loads] that decodes the text [json.dumps(v)] back to [v] and
    rejects every other string. *)
Definition decoder_for (v : jvalue) : jvalue -> result jvalue :=
  fun p =>
    match p with
    | JStr s => if String.eqb s (json_dumps v) then Ok v else Exc JSONDecodeError
    | _ => Exc TypeError
    end.

(** A payload of the requested shape with one question and the given
    reflection prompt field. *)
Definition one_question_payload (reflection : list (string * jvalue)) : jvalue :=
  JObj (("questions", JArr [qp "Which claim matters most?" "Finds the thesis"])
        :: reflection).

Definition sample_templates : list (string * PromptTemplate) :=
  [ ("Academic Paper",
     {| persona := "You are an academic writing tutor.";
        instruction_body := "Assess thesis, evidence, organization and style." |});
    ("Thesis Statement",
     {| persona := "You are a thesis statement coach.";
        instruction_body := "Assess arguability, specificity, clarity and scope." |}) ].

End Scenarios.

(** * Properties *)

(** ** Helper lemmas on strings *)
Module StringFacts.

Lemma string_app_assoc (a b c : string) : (a ++ b) ++ c = a ++ (b ++ c).
Proof. induction a as [|x a IH]; simpl; [reflexivity|]. rewrite IH. reflexivity. Qed.

Lemma contains_unfold (n s : string) :
  contains n s = match strip_prefix n s with
                 | Some _ => true
                 | None => match s with EmptyString => false | String _ t => contains n t end
                 end.
Proof. destruct s; reflexivity. Qed.

Lemma strip_prefix_app (n s r post : string) :
  strip_prefix n s = Some r -> strip_prefix n (s ++ post) = Some (r ++ post).
Proof.
  revert s. induction n as [|a n IH]; intros s H.
  - simpl in *. injection H as <-. reflexivity.
  - destruct s as [|b s]; simpl in *; [discriminate|].
    destruct (Ascii.eqb a b); [apply IH; exact H|discriminate].
Qed.

Lemma contains_app_r (n s post : string) :
  contains n s = true -> contains n (s ++ post) = true.
Proof.
  induction s as [|c s IH]; intros H.
  - rewrite contains_unfold in H.
    destruct (strip_prefix n EmptyString) as [r|] eqn:E; [|discriminate].
    rewrite contains_unfold, (strip_prefix_app _ _ _ post E). reflexivity.
  - rewrite contains_unfold in H.
    destruct (strip_prefix n (String c s)) as [r|] eqn:E.
    + rewrite contains_unfold, (strip_prefix_app _ _ _ post E). reflexivity.
    + rewrite contains_unfold. simpl (String c s ++ post).
      destruct (strip_prefix n (String c (s ++ post))); [reflexivity|].
      apply IH. exact H.
Qed.

Lemma contains_app_l (n pre s : string) :
  contains n s = true -> contains n (pre ++ s) = true.
Proof.
  induction pre as [|c pre IH]; intros H; [exact H|].
  change (contains n (String c (pre ++ s)) = true). rewrite contains_unfold.
  destruct (strip_prefix n (String c (pre ++ s))); [reflexivity|].
  apply IH. exact H.
Qed.

Lemma contains_self (n : string) : contains n n = true.
Proof.
  rewrite contains_unfold.
  assert (H : forall m, strip_prefix m m = Some EmptyString).
  { induction m as [|a m IH]; simpl; [reflexivity|]. rewrite Ascii.eqb_refl. exact IH. }
  rewrite H. reflexivity.
Qed.

End StringFacts.

(** ** Helper lemmas on the patterns and the scanner *)
Module RegexFacts.
Import Regex.

Lemma has_char_app (x : ascii) (s1 s2 : string) :
  has_char x (s1 ++ s2) = has_char x s1 || has_char x s2.
Proof.
  induction s1 as [|c t IH]; simpl; [reflexivity|].
  rewrite IH. apply orb_assoc.
Qed.

Lemma strip_close_spec (t b : string) : strip_close t = Some b -> t = b ++ ")".
Proof.
  revert b. induction t as [|c u IH]; intros b H; [discriminate|].
  destruct u as [|c' u'].
  - simpl in H. destruct (Ascii.eqb c ")") eqn:E; [|discriminate].
    apply Ascii.eqb_eq in E. subst c. injection H as <-. reflexivity.
  - change (option_map (String c) (strip_close (String c' u')) = Some b) in H.
    destruct (strip_close (String c' u')) as [b'|] eqn:E; [|discriminate].
    injection H as <-. simpl. f_equal. apply IH. reflexivity.
Qed.

Lemma split_on_no_sep (sep : ascii) (s : string) :
  has_char sep s = false -> split_on sep s = [s].
Proof.
  induction s as [|c t IH]; simpl; intros H; [reflexivity|].
  apply orb_false_iff in H as [H1 H2].
  rewrite H1, (IH H2). reflexivity.
Qed.

Lemma skip_while_split (p : ascii -> bool) (s : string) :
  exists pre, s = pre ++ skip_while p s /\ all_chars p pre = true.
Proof.
  induction s as [|c t IH]; simpl.
  - exists EmptyString. split; reflexivity.
  - destruct (p c) eqn:E.
    + destruct IH as [pre [H1 H2]]. exists (String c pre). simpl.
      rewrite E, H2. split; [f_equal; exact H1|reflexivity].
    + exists EmptyString. split; reflexivity.
Qed.

Lemma all_chars_no_char (p : ascii -> bool) (x : ascii) (s : string) :
  p x = false -> all_chars p s = true -> has_char x s = false.
Proof.
  intros Hx. induction s as [|c t IH]; simpl; intros H; [reflexivity|].
  apply andb_true_iff in H as [H1 H2].
  rewrite (IH H2), orb_false_r.
  apply Ascii.eqb_neq. intros ->. congruence.
Qed.

(** Every APA match contains a comma. *)
Lemma apa_full_comma (s : string) : apa_full s = true -> has_char "," s = true.
Proof.
  destruct s as [|c t]; simpl; [discriminate|].
  intros H. apply andb_true_iff in H as [_ H].
  destruct (strip_close t) as [b|] eqn:E; [|discriminate].
  rewrite (strip_close_spec t b E), has_char_app.
  destruct (has_char "," b) eqn:Hb; [rewrite orb_true_l; apply orb_true_r|].
  unfold apa_body in H. rewrite (split_on_no_sep _ _ Hb) in H.
  simpl in H. rewrite andb_false_r in H. discriminate.
Qed.

(** No MLA match contains a comma. *)
Lemma mla_full_no_comma (s : string) : mla_full s = true -> has_char "," s = false.
Proof.
  destruct s as [|c t]; simpl; [discriminate|].
  intros H. apply andb_true_iff in H as [Hc H].
  apply Ascii.eqb_eq in Hc. subst c.
  destruct (strip_close t) as [b|] eqn:E; [|discriminate].
  rewrite (strip_close_spec t b E), has_char_app. simpl.
  unfold mla_body in H.
  destruct (skip_while_split is_alpha b) as [pre1 [Hb Hpre1]].
  destruct (skip_while_split is_space (skip_while is_alpha b)) as [pre2 [Hr Hpre2]].
  apply andb_true_iff in H as [_ H]. apply andb_true_iff in H as [_ H].
  apply andb_true_iff in H as [_ Hd].
  rewrite Hb, Hr, !has_char_app.
  rewrite (all_chars_no_char _ _ _ (eq_refl : is_alpha "," = false) Hpre1).
  rewrite (all_chars_no_char _ _ _ (eq_refl : is_space "," = false) Hpre2).
  rewrite (all_chars_no_char _ _ _ (eq_refl : is_digit "," = false) Hd).
  reflexivity.
Qed.

Lemma match_at_full (full : string -> bool) (s w : string) :
  match_at full s = Some w -> full w = true.
Proof. unfold match_at. intros H. apply find_some in H. apply H. Qed.

(** Everything [findall] returns is a match found at some position. *)
Lemma scan_found (m : string -> option string) (s : string) (k : nat) (w : string) :
  In w (scan m s k) -> exists s', m s' = Some w.
Proof.
  revert k. induction s as [|c t IH]; intros k H.
  - destruct k; simpl in H; [|contradiction].
    destruct (m EmptyString) eqn:E; simpl in H; [|contradiction].
    destruct H as [<-|[]]. eauto.
  - destruct k; simpl in H.
    + destruct (m (String c t)) eqn:E.
      * destruct H as [<-|H]; [eauto|eapply IH; exact H].
      * eapply IH; exact H.
    + eapply IH; exact H.
Qed.

Lemma findall_full (full : string -> bool) (text w : string) :
  In w (findall (match_at full) text) -> full w = true.
Proof.
  unfold findall. intros H. apply scan_found in H as [s' H].
  eapply match_at_full. exact H.
Qed.

End RegexFacts.

(** ** Citation Analyzer *)
Module CitationSpec.
Import Regex Citation.

(** C1: the total counts the APA and MLA matches and nothing else; the
    URLs are counted on their own. *)
Theorem total_is_apa_plus_mla (text : string) :
  total_citations (detect_citations text)
    = apa_count (detect_citations text) + mla_count (detect_citations text)
  /\ apa_count (detect_citations text) = List.length (apa_citations text)
  /\ mla_count (detect_citations text) = List.length (mla_citations text)
  /\ url_count (detect_citations text) = List.length (urls text).
Proof. repeat split. Qed.

(** C7: [has_recent_sources] holds exactly when some APA match contains
    ["202"]; MLA matches and URLs do not enter it; for the text
    ["(Smith, 1999)"] it is false. *)
Theorem recent_sources_iff (text : string) :
  (has_recent_sources (detect_citations text) = true
     <-> exists c, In c (apa_citations text) /\ contains "202" c = true)
  /\ has_recent_sources (detect_citations "(Smith, 1999)") = false.
Proof.
  split; [|vm_compute; reflexivity].
  unfold detect_citations. simpl. apply existsb_exists.
Qed.

(** C8: the density is (APA + MLA) over the word count of [text.split()],
    floored at 1, times 1000; the empty text has all counts 0 and
    density 0. *)
Theorem density_formula (text : string) :
  (citation_density (detect_citations text)
     == inject_Z (Z.of_nat (apa_count (detect_citations text)
                            + mla_count (detect_citations text)))
        / inject_Z (Z.of_nat (Nat.max (List.length (py_split text)) 1)) * 1000)%Q
  /\ 1 <= Nat.max (List.length (py_split text)) 1
  /\ apa_count (detect_citations EmptyString) = 0
  /\ mla_count (detect_citations EmptyString) = 0
  /\ url_count (detect_citations EmptyString) = 0
  /\ total_citations (detect_citations EmptyString) = 0
  /\ (citation_density (detect_citations EmptyString) == 0)%Q.
Proof.
  split; [reflexivity|]. split; [lia|].
  vm_compute. repeat split; reflexivity.
Qed.

(** C9: no string matches both the APA and the MLA pattern, so no APA
    match of a text is also one of its MLA matches. *)
Theorem apa_mla_disjoint :
  (forall s, apa_full s = true -> mla_full s = false)
  /\ (forall text c, In c (apa_citations text) -> ~ In c (mla_citations text)).
Proof.
  assert (Hs : forall s, apa_full s = true -> mla_full s = false).
  { intros s Ha. destruct (mla_full s) eqn:Hm; [|reflexivity].
    apply RegexFacts.apa_full_comma in Ha.
    apply RegexFacts.mla_full_no_comma in Hm. congruence. }
  split; [exact Hs|].
  intros text c Ha Hm.
  apply RegexFacts.findall_full in Ha. apply RegexFacts.findall_full in Hm.
  rewrite (Hs c Ha) in Hm. discriminate.
Qed.

End CitationSpec.

(** ** Feedback Dispatcher *)
Module DispatcherSpec.
Import Py Citation Dispatcher Scenarios.
Local Open Scope py_scope.

(** Both dispatchers make one call and hand the content back, or the
    handler's value when the call or the extraction raised. *)
Lemma dispatch_shape (completion : option string -> request -> result jvalue)
    (api_key : option string) (req : request) (fb : exn -> jvalue) :
  try_except
    (response <- chat_completion_create completion api_key req ;;
     raise_from (extract_content response)) fb
  = ([EvCall api_key req],
     Ok (match rbind (completion api_key req) extract_content with
         | Ok v => v
         | Exc e => fb e
         end)).
Proof.
  unfold try_except, bind, chat_completion_create, raise_from, rbind.
  destruct (completion api_key req) as [resp|e]; [|reflexivity].
  destruct (extract_content resp); reflexivity.
Qed.

Lemma generate_socratic_questions_eq completion api_key text focus_area :
  generate_socratic_questions completion api_key text focus_area
  = ([EvCall api_key (socratic_request text focus_area)],
     Ok (match rbind (completion api_key (socratic_request text focus_area)) extract_content with
         | Ok v => v
         | Exc _ => JStr (json_dumps socratic_fallback)
         end)).
Proof. apply dispatch_shape. Qed.

Lemma analyze_citations_with_ai_eq completion api_key text cd :
  analyze_citations_with_ai completion api_key text cd
  = ([EvCall api_key (citation_request text cd)],
     Ok (match rbind (completion api_key (citation_request text cd)) extract_content with
         | Ok v => v
         | Exc _ => JStr citation_fallback
         end)).
Proof. apply dispatch_shape. Qed.

(** C2: when the Completion Service call fails (it raises, or its answer
    lacks [choices[0].message.content]), each dispatcher returns normally
    (no exception) with its fixed, non-empty fallback string. *)
Theorem dispatcher_fail_soft
    (completion : option string -> request -> result jvalue)
    (api_key : option string) (text focus_area : string) (cd : CitationReport)
    (e1 e2 : exn)
    (Hq : rbind (completion api_key (socratic_request text focus_area)) extract_content = Exc e1)
    (Hc : rbind (completion api_key (citation_request text cd)) extract_content = Exc e2) :
  generate_socratic_questions completion api_key text focus_area
    = ([EvCall api_key (socratic_request text focus_area)],
       Ok (JStr (json_dumps socratic_fallback)))
  /\ analyze_citations_with_ai completion api_key text cd
    = ([EvCall api_key (citation_request text cd)], Ok (JStr citation_fallback))
  /\ json_dumps socratic_fallback <> EmptyString
  /\ citation_fallback <> EmptyString.
Proof.
  rewrite generate_socratic_questions_eq, analyze_citations_with_ai_eq, Hq, Hc.
  repeat split; discriminate.
Qed.

Lemma dispatcher_fail_soft_witness :
  generate_socratic_questions unreachable_service (Some "sk-test") "My essay." "Critical Thinking"
    = ([EvCall (Some "sk-test") (socratic_request "My essay." "Critical Thinking")],
       Ok (JStr (json_dumps socratic_fallback)))
  /\ analyze_citations_with_ai malformed_service None "My essay." (detect_citations "My essay.")
    = ([EvCall None (citation_request "My essay." (detect_citations "My essay."))],
       Ok (JStr citation_fallback)).
Proof.
  split.
  - apply (dispatcher_fail_soft unreachable_service (Some "sk-test") "My essay."
             "Critical Thinking" (detect_citations "My essay.") APIConnectionError
             APIConnectionError); reflexivity.
  - apply (dispatcher_fail_soft malformed_service None "My essay." "Critical Thinking"
             (detect_citations "My essay.") KeyError KeyError); reflexivity.
Defined.

End DispatcherSpec.

(** ** The citation note of the user-role message *)
Module CitationNoteSpec.
Import Py Citation Registry TemplateDispatcher StringFacts.

Lemma citation_note_states_count (n : nat) :
  contains (py_str_nat n) (citation_note n) = true
  /\ contains "source integration" (citation_note n) = true.
Proof.
  unfold citation_note. split.
  - apply contains_app_l, contains_app_r, contains_self.
  - apply contains_app_l, contains_app_l.
    change (" citation(s). Consider the quality of source integration: how well each source supports the argument.")
      with (" citation(s). Consider the quality of " ++ ("source integration" ++ ": how well each source supports the argument.")).
    apply contains_app_l, contains_app_r, contains_self.
Qed.

Lemma string_app_empty_r (s : string) : s ++ EmptyString = s.
Proof. induction s as [|c r IH]; simpl; [reflexivity|]. rewrite IH. reflexivity. Qed.

(** C5 (modelled from the spec, section 4.3): the user-role message built by
    the template-based Feedback Dispatcher is the draft text and the
    instruction body followed by the appended citation note exactly when
    [total_citations > 0]; that note states the citation count and prompts
    consideration of source integration quality. When [total_citations = 0]
    nothing follows the instruction body. *)
Theorem citation_note_iff_citations (draft : string) (t : PromptTemplate)
    (cd : CitationReport) :
  In {| role := "user"; content := user_content draft t cd |}
     (dispatch_messages draft t cd)
  /\ (0 < total_citations cd ->
       user_content draft t cd
       = draft ++ nl ++ nl ++ instruction_body t ++ nl ++ nl
           ++ citation_note (total_citations cd)
       /\ contains (py_str_nat (total_citations cd))
                   (citation_note (total_citations cd)) = true
       /\ contains "source integration" (citation_note (total_citations cd)) = true)
  /\ (total_citations cd = 0 ->
       user_content draft t cd = draft ++ nl ++ nl ++ instruction_body t)
  /\ (citation_suffix cd <> EmptyString <-> 0 < total_citations cd).
Proof.
  split; [right; left; reflexivity|].
  unfold user_content, citation_suffix.
  destruct (Nat.ltb 0 (total_citations cd)) eqn:E.
  - apply Nat.ltb_lt in E. split; [|split].
    + intros _. split; [reflexivity|apply citation_note_states_count].
    + intros H. lia.
    + split; [intros _; exact E|intros _; discriminate].
  - apply Nat.ltb_ge in E. split; [intros H; lia|]. split.
    + intros _. rewrite string_app_empty_r. reflexivity.
    + split; [intros H; exfalso; apply H; reflexivity|intros H; lia].
Qed.

End CitationNoteSpec.

(** ** Display of the Socratic questions *)
Module DisplaySpec.
Import Py Display Scenarios.

Lemma count_questions_app (a b : list display_item) :
  count_questions (app a b) = count_questions a + count_questions b.
Proof. unfold count_questions. rewrite filter_app, length_app. reflexivity. Qed.

Lemma count_reflections_app (a b : list display_item) :
  count_reflections (app a b) = count_reflections a + count_reflections b.
Proof. unfold count_reflections. rewrite filter_app, length_app. reflexivity. Qed.

Lemma render_questions_wf (qs : list jvalue) :
  Forall well_formed_question qs ->
  forall i, exists items, render_questions qs i = Ok items
    /\ count_questions items = List.length qs /\ count_reflections items = 0.
Proof.
  induction 1 as [|q qs Hq _ IH]; intros i.
  - exists []. repeat split.
  - destruct Hq as [kvs [x [y [-> [Hx Hy]]]]].
    destruct (IH (S i)) as [items [E [Cq Cr]]].
    exists (DQuestion i x y :: items). simpl. unfold getitem_key.
    rewrite Hx, Hy, E. simpl.
    unfold count_questions, count_reflections in *. simpl.
    rewrite Cq, Cr. repeat split.
Qed.

(** A decoded object whose [questions] is a list of well-formed entries
    shows one box per entry, then the reflection box if and only if the
    reflection prompt is truthy. *)
Lemma display_wellformed (json_loads : jvalue -> result jvalue) (payload : jvalue)
    (kvs : list (string * jvalue)) (qs : list jvalue) :
  json_loads payload = Ok (JObj kvs) ->
  dict_lookup "questions" kvs = Some (JArr qs) ->
  Forall well_formed_question qs ->
  exists items, display_results json_loads payload = Ok items
    /\ count_questions items = List.length qs
    /\ count_reflections items = (if py_truthy (reflection_of kvs) then 1 else 0).
Proof.
  intros Hload Hqs Hwf.
  destruct (render_questions_wf qs Hwf 1) as [items [E [Cq Cr]]].
  exists (app items (if py_truthy (reflection_of kvs) then [DReflection (reflection_of kvs)] else [])).
  unfold display_results, load_questions. rewrite Hload. simpl. rewrite Hqs.
  unfold render. simpl. rewrite E. simpl.
  split; [reflexivity|].
  rewrite count_questions_app, count_reflections_app, Cq, Cr.
  destruct (py_truthy (reflection_of kvs)); cbn; split; lia.
Qed.

(** Any payload [json.loads] rejects shows the fixed fallback. *)
Lemma display_parse_failure (json_loads : jvalue -> result jvalue) (payload : jvalue) (e : exn) :
  json_loads payload = Exc e -> display_results json_loads payload = Ok fallback_display.
Proof.
  intros H. unfold display_results, load_questions. rewrite H. reflexivity.
Qed.

(** C3 (as the code does it): a well-formed payload with N questions shows
    exactly N question boxes, plus one reflection box exactly when its
    reflection prompt is present and non-empty (truthy); a payload that
    does not parse shows, every time, the same 3 fallback questions and
    1 fallback reflection. *)
Theorem socratic_display_counts (json_loads : jvalue -> result jvalue) (payload : jvalue)
    (kvs : list (string * jvalue)) (qs : list jvalue)
    (Hload : json_loads payload = Ok (JObj kvs))
    (Hqs : dict_lookup "questions" kvs = Some (JArr qs))
    (Hwf : Forall well_formed_question qs) :
  (exists items, display_results json_loads payload = Ok items
     /\ count_questions items = List.length qs
     /\ count_reflections items = (if py_truthy (reflection_of kvs) then 1 else 0))
  /\ (forall payload' e, json_loads payload' = Exc e ->
        display_results json_loads payload' = Ok fallback_display)
  /\ count_questions fallback_display = 3
  /\ count_reflections fallback_display = 1.
Proof.
  split; [exact (display_wellformed json_loads payload kvs qs Hload Hqs Hwf)|].
  split; [exact (display_parse_failure json_loads)|].
  split; reflexivity.
Qed.

Lemma socratic_display_counts_witness :
  exists items,
    display_results
      (decoder_for (one_question_payload [("reflection_prompt", JStr "Who is this for?")]))
      (JStr (json_dumps (one_question_payload [("reflection_prompt", JStr "Who is this for?")])))
      = Ok items
    /\ count_questions items = 1 /\ count_reflections items = 1.
Proof.
  refine (proj1 (socratic_display_counts
    (decoder_for (one_question_payload [("reflection_prompt", JStr "Who is this for?")]))
    (JStr (json_dumps (one_question_payload [("reflection_prompt", JStr "Who is this for?")])))
    [("questions", JArr [Dispatcher.qp "Which claim matters most?" "Finds the thesis"]);
     ("reflection_prompt", JStr "Who is this for?")]
    [Dispatcher.qp "Which claim matters most?" "Finds the thesis"] _ _ _)).
  - vm_compute. reflexivity.
  - reflexivity.
  - constructor; [|constructor].
    do 3 eexists. split; [reflexivity|]. split; reflexivity.
Defined.

(** C3 as stated fails: a payload of the requested shape with one
    question and an empty [reflection_prompt] shows one question and no
    reflection prompt. *)
Lemma empty_reflection_payload_shows_none :
  display_results
    (decoder_for (one_question_payload [("reflection_prompt", JStr EmptyString)]))
    (JStr (json_dumps (one_question_payload [("reflection_prompt", JStr EmptyString)])))
  = Ok [DQuestion 1 (JStr "Which claim matters most?") (JStr "Finds the thesis")]
  /\ count_reflections [DQuestion 1 (JStr "Which claim matters most?") (JStr "Finds the thesis")] = 0.
Proof. vm_compute. split; reflexivity. Qed.

(** C10: a well-formed payload whose [reflection_prompt] is absent or the
    empty string shows no reflection prompt; the parse-failure fallback
    always shows exactly one, and it is non-empty. *)
Theorem empty_reflection_not_shown (json_loads : jvalue -> result jvalue) (payload : jvalue)
    (kvs : list (string * jvalue)) (qs : list jvalue)
    (Hload : json_loads payload = Ok (JObj kvs))
    (Hqs : dict_lookup "questions" kvs = Some (JArr qs))
    (Hwf : Forall well_formed_question qs)
    (Hr : dict_lookup "reflection_prompt" kvs = None
          \/ dict_lookup "reflection_prompt" kvs = Some (JStr EmptyString)) :
  (exists items, display_results json_loads payload = Ok items
     /\ count_questions items = List.length qs
     /\ count_reflections items = 0)
  /\ (forall payload' e, json_loads payload' = Exc e ->
        display_results json_loads payload' = Ok fallback_display)
  /\ count_reflections fallback_display = 1
  /\ In (DReflection fallback_reflection) fallback_display
  /\ py_truthy fallback_reflection = true.
Proof.
  split.
  - destruct (display_wellformed json_loads payload kvs qs Hload Hqs Hwf)
      as [items [E [Cq Cr]]].
    exists items. split; [exact E|]. split; [exact Cq|].
    rewrite Cr. unfold reflection_of.
    destruct Hr as [Hr|Hr]; rewrite Hr; reflexivity.
  - split; [exact (display_parse_failure json_loads)|].
    split; [reflexivity|]. split; [simpl; auto 6|reflexivity].
Qed.

Lemma empty_reflection_not_shown_witness :
  exists items,
    display_results
      (decoder_for (one_question_payload []))
      (JStr (json_dumps (one_question_payload [])))
      = Ok items
    /\ count_questions items = 1 /\ count_reflections items = 0.
Proof.
  refine (proj1 (empty_reflection_not_shown
    (decoder_for (one_question_payload []))
    (JStr (json_dumps (one_question_payload [])))
    [("questions", JArr [Dispatcher.qp "Which claim matters most?" "Finds the thesis"])]
    [Dispatcher.qp "Which claim matters most?" "Finds the thesis"] _ _ _ _)).
  - vm_compute. reflexivity.
  - reflexivity.
  - constructor; [|constructor].
    do 3 eexists. split; [reflexivity|]. split; reflexivity.
  - left. reflexivity.
Defined.

End DisplaySpec.

(** ** Prompt Template Registry *)
Module RegistrySpec.
Import Py Registry Scenarios.

(** C4 (modelled from the spec): a registered label gets its own
    template; an unregistered label gets the default label's template;
    no lookup fails while the default label is registered. *)
Theorem lookup_or_default (TEMPLATES : list (string * PromptTemplate))
    (Hdef : dict_lookup DEFAULT_LABEL TEMPLATES <> None) :
  (forall label t, dict_lookup label TEMPLATES = Some t -> get_template TEMPLATES label = Ok t)
  /\ (forall label, dict_lookup label TEMPLATES = None ->
        get_template TEMPLATES label = get_template TEMPLATES DEFAULT_LABEL)
  /\ (forall label, exists t, get_template TEMPLATES label = Ok t).
Proof.
  destruct (dict_lookup DEFAULT_LABEL TEMPLATES) as [d|] eqn:Hd; [|congruence].
  split; [|split].
  - intros label t H. unfold get_template. rewrite H. reflexivity.
  - intros label H. unfold get_template. rewrite H, Hd. reflexivity.
  - intros label. unfold get_template.
    destruct (dict_lookup label TEMPLATES) as [t|]; [eauto|rewrite Hd; eauto].
Qed.

Lemma lookup_or_default_witness :
  get_template sample_templates "Lab Report" = get_template sample_templates "Academic Paper"
  /\ get_template sample_templates "Thesis Statement"
       = Ok {| persona := "You are a thesis statement coach.";
               instruction_body := "Assess arguability, specificity, clarity and scope." |}.
Proof.
  destruct (lookup_or_default sample_templates ltac:(discriminate)) as [H1 [H2 _]].
  split; [apply H2; reflexivity|apply H1; reflexivity].
Defined.

End RegistrySpec.

(** ** The missing credential *)
Module CredentialSpec.
Import Py Citation Dispatcher App Scenarios.

(** C6 (as the code does it): with no [OPENAI_API_KEY] in the environment
    nothing checks the key; a non-blank draft still makes both Completion
    Service calls, with key [None], and when they fail the page stores the
    same fallbacks as for any other service failure. *)
Theorem missing_key_not_detected
    (completion : option string -> request -> result jvalue)
    (env : list (string * string)) (user_input focus : string) (st : session)
    (Hkey : read_api_key env = None)
    (Hinput : String.eqb (py_strip user_input) EmptyString = false) :
  fst (start_guided_analysis completion env user_input focus st)
    = [EvCall None (socratic_request user_input focus);
       EvCall None (citation_request user_input (detect_citations user_input))]
  /\ (forall e1 e2,
        completion None (socratic_request user_input focus) = Exc e1 ->
        completion None (citation_request user_input (detect_citations user_input)) = Exc e2 ->
        snd (start_guided_analysis completion env user_input focus st)
          = Ok {| analysis_complete := true;
                  questions_data := Some (JStr (json_dumps socratic_fallback));
                  citation_feedback := Some (JStr citation_fallback);
                  citation_data := Some (detect_citations user_input) |}).
Proof.
  unfold start_guided_analysis. rewrite Hkey, Hinput.
  rewrite DispatcherSpec.generate_socratic_questions_eq,
          DispatcherSpec.analyze_citations_with_ai_eq.
  split; [reflexivity|].
  intros e1 e2 H1 H2. simpl. rewrite H1, H2. reflexivity.
Qed.

Lemma missing_key_not_detected_witness :
  fst (start_guided_analysis auth_checking_service [] "My essay." "Critical Thinking"
         initial_session)
    = [EvCall None (socratic_request "My essay." "Critical Thinking");
       EvCall None (citation_request "My essay." (detect_citations "My essay."))].
Proof.
  exact (proj1 (missing_key_not_detected auth_checking_service [] "My essay."
                  "Critical Thinking" initial_session eq_refl eq_refl)).
Defined.

(** C6 as stated fails: without the key, the first thing the page does
    for a non-blank draft is call the Completion Service, and what it
    stores is exactly what a network failure with a valid key stores. *)
Lemma missing_key_reaches_service :
  let run_nokey :=
    start_guided_analysis auth_checking_service [] "My essay." "Critical Thinking"
      initial_session in
  let run_network :=
    start_guided_analysis unreachable_service [("OPENAI_API_KEY", "sk-test")]
      "My essay." "Critical Thinking" initial_session in
  hd_error (fst run_nokey) = Some (EvCall None (socratic_request "My essay." "Critical Thinking"))
  /\ forallb is_call (fst run_nokey) = true
  /\ snd run_nokey = snd run_network.
Proof. vm_compute. repeat split. Qed.

End CredentialSpec.

(** ** Further properties of the Citation Analyzer *)
Module ScanFacts.
Import Regex StringFacts RegexFacts.

Lemma string_length_app (a b : string) :
  String.length (a ++ b) = String.length a + String.length b.
Proof. induction a as [|c a IH]; simpl; [reflexivity|]. rewrite IH. reflexivity. Qed.

Lemma in_prefixes (s w : string) : In w (prefixes s) -> exists r, s = w ++ r.
Proof.
  revert w. induction s as [|c t IH]; intros w H; simpl in H.
  - destruct H as [<-|[]]. exists EmptyString. reflexivity.
  - destruct H as [<-|H].
    + exists (String c t). reflexivity.
    + apply in_map_iff in H as [w' [<- Hw']].
      destruct (IH w' Hw') as [r ->]. exists r. reflexivity.
Qed.

Lemma match_at_prefix (full : string -> bool) (s w : string) :
  match_at full s = Some w -> exists r, s = w ++ r.
Proof.
  unfold match_at. intros H. apply find_some in H as [H _]. exact (in_prefixes s w H).
Qed.

Lemma strip_prefix_spec (pre s r : string) : strip_prefix pre s = Some r -> s = pre ++ r.
Proof.
  revert s. induction pre as [|a pre IH]; intros s H; simpl in H.
  - injection H as <-. reflexivity.
  - destruct s as [|b s]; [discriminate|].
    destruct (Ascii.eqb a b) eqn:E; [|discriminate].
    apply Ascii.eqb_eq in E. subst b. simpl. f_equal. apply IH. exact H.
Qed.

Lemma take_while_prefix (p : ascii -> bool) (s : string) :
  exists r, s = take_while p s ++ r.
Proof.
  induction s as [|c t [r IH]]; simpl.
  - exists EmptyString. reflexivity.
  - destruct (p c).
    + exists r. simpl. f_equal. exact IH.
    + exists (String c t). reflexivity.
Qed.

Lemma take_while_all (p : ascii -> bool) (s : string) : all_chars p (take_while p s) = true.
Proof.
  induction s as [|c t IH]; simpl; [reflexivity|].
  destruct (p c) eqn:E; simpl; [rewrite E, IH; reflexivity|reflexivity].
Qed.

Lemma scheme_run_spec (scheme s rest w : string) :
  strip_prefix scheme s = Some rest ->
  (if is_empty (take_while (fun c => negb (is_space c)) rest) then None
   else Some (scheme ++ take_while (fun c => negb (is_space c)) rest)) = Some w ->
  (exists r, s = w ++ r)
  /\ exists run, w = scheme ++ run /\ run <> EmptyString
                 /\ all_chars (fun c => negb (is_space c)) run = true.
Proof.
  intros Hs H.
  destruct (is_empty (take_while (fun c => negb (is_space c)) rest)) eqn:E; [discriminate|].
  injection H as <-.
  destruct (take_while_prefix (fun c => negb (is_space c)) rest) as [r Hr].
  split.
  - exists r. rewrite (strip_prefix_spec _ _ _ Hs), Hr at 1. symmetry. apply string_app_assoc.
  - eexists. split; [reflexivity|]. split.
    + intros Z. rewrite Z in E. discriminate.
    + apply take_while_all.
Qed.

Lemma url_at_spec (s w : string) :
  url_at s = Some w ->
  (exists r, s = w ++ r)
  /\ exists scheme run, (scheme = "http://" \/ scheme = "https://")
       /\ w = scheme ++ run /\ run <> EmptyString
       /\ all_chars (fun c => negb (is_space c)) run = true.
Proof.
  unfold url_at. cbv beta zeta.
  destruct (strip_prefix "https://" s) as [rest|] eqn:E1.
  - intros H. destruct (scheme_run_spec _ _ _ _ E1 H) as [Hp [run Hrun]].
    split; [exact Hp|]. exists "https://", run. split; [right; reflexivity|exact Hrun].
  - destruct (strip_prefix "http://" s) as [rest|] eqn:E2; [|discriminate].
    intros H. destruct (scheme_run_spec _ _ _ _ E2 H) as [Hp [run Hrun]].
    split; [exact Hp|]. exists "http://", run. split; [left; reflexivity|exact Hrun].
Qed.

(** Where each element of [scan] was found. *)
Lemma scan_pos (m : string -> option string) (s : string) (k : nat) (w : string) :
  In w (scan m s k) -> exists p s', s = p ++ s' /\ m s' = Some w.
Proof.
  revert k. induction s as [|c t IH]; intros k H.
  - destruct k; simpl in H; [|contradiction].
    destruct (m EmptyString) eqn:E; simpl in H; [|contradiction].
    destruct H as [<-|[]]. exists EmptyString, EmptyString. auto.
  - assert (Ht : forall k', In w (scan m t k') ->
                 exists p s', String c t = p ++ s' /\ m s' = Some w).
    { intros k' H'. destruct (IH k' H') as [p [s' [-> E]]].
      exists (String c p), s'. auto. }
    destruct k; simpl in H.
    + destruct (m (String c t)) eqn:E.
      * destruct H as [<-|H]; [exists EmptyString, (String c t); auto|exact (Ht _ H)].
      * exact (Ht _ H).
    + exact (Ht _ H).
Qed.

Lemma findall_occurs (m : string -> option string)
    (Hm : forall s w, m s = Some w -> exists r, s = w ++ r) (text w : string) :
  In w (findall m text) -> exists p r, text = p ++ (w ++ r).
Proof.
  unfold findall. intros H. destruct (scan_pos m text 0 w H) as [p [s' [-> E]]].
  destruct (Hm _ _ E) as [r ->]. eauto.
Qed.

Lemma occurs_contains (text w p r : string) : text = p ++ (w ++ r) -> contains w text = true.
Proof.
  intros ->. apply contains_app_l, contains_app_r, contains_self.
Qed.

(** The matches [scan] returns do not overlap: their lengths add up to at
    most the length of the text. *)
Lemma scan_len (m : string -> option string)
    (Hm : forall s w, m s = Some w -> exists r, s = w ++ r) (s : string) (k : nat) :
  list_sum (map String.length (scan m s k)) <= String.length s - k.
Proof.
  revert k. induction s as [|c t IH]; intros k.
  - destruct k; simpl; [|lia].
    destruct (m EmptyString) as [w|] eqn:E; simpl; [|lia].
    destruct (Hm _ _ E) as [r Hr]. destruct w as [|a w]; [simpl; lia|discriminate Hr].
  - destruct k as [|k]; simpl.
    + destruct (m (String c t)) as [w|] eqn:E; simpl.
      * destruct (Hm _ _ E) as [r Hr].
        assert (L : S (String.length t) = String.length w + String.length r)
          by (rewrite <- string_length_app, <- Hr; reflexivity).
        specialize (IH (String.length w - 1)). lia.
      * specialize (IH 0). lia.
    + specialize (IH k). lia.
Qed.

Lemma sum_lower_bound (L : nat) (l : list string) :
  (forall w, In w l -> L <= String.length w) ->
  L * List.length l <= list_sum (map String.length l).
Proof.
  induction l as [|w l IH]; intros H; simpl; [lia|].
  rewrite Nat.mul_succ_r.
  assert (Hw : L <= String.length w) by (apply H; left; reflexivity).
  assert (Hl : L * List.length l <= list_sum (map String.length l))
    by (apply IH; intros; apply H; right; assumption).
  lia.
Qed.

Lemma skip_while_len (p : ascii -> bool) (s : string) :
  String.length (skip_while p s) <= String.length s.
Proof. induction s as [|c t IH]; simpl; [lia|]. destruct (p c); simpl; lia. Qed.

Lemma skip_while_lt (p : ascii -> bool) (s : string) :
  starts_with p s = true -> S (String.length (skip_while p s)) <= String.length s.
Proof.
  destruct s as [|c t]; simpl; [discriminate|]. intros ->.
  pose proof (skip_while_len p t). lia.
Qed.

Lemma split_on_weight (sep : ascii) (s : string) :
  S (String.length s) = list_sum (map (fun w => S (String.length w)) (split_on sep s)).
Proof.
  induction s as [|c t IH]; simpl; [reflexivity|].
  destruct (Ascii.eqb c sep); simpl; [lia|].
  destruct (split_on sep t) as [|w ws]; simpl in *; lia.
Qed.

Lemma apa_tail_weight (parts : list string) :
  apa_tail parts = true -> 5 <= list_sum (map (fun w => S (String.length w)) parts).
Proof.
  induction parts as [|x rest IH]; [discriminate|].
  destruct rest as [|y rest'].
  - intros H. change (ws_digits4 x = true) in H.
    unfold ws_digits4 in H. apply andb_true_iff in H as [H _].
    apply Nat.eqb_eq in H. pose proof (skip_while_len is_space x). simpl. lia.
  - intros H. change (ws_alpha1 x && apa_tail (y :: rest') = true) in H.
    apply andb_true_iff in H as [_ H]. specialize (IH H).
    change (5 <= S (String.length x) + list_sum (map (fun w => S (String.length w)) (y :: rest'))).
    lia.
Qed.

Lemma apa_full_len (w : string) : apa_full w = true -> 8 <= String.length w.
Proof.
  destruct w as [|c t]; simpl; [discriminate|].
  intros H. apply andb_true_iff in H as [_ H].
  destruct (strip_close t) as [b|] eqn:E; [|discriminate].
  rewrite (strip_close_spec t b E), string_length_app. simpl.
  unfold apa_body in H. pose proof (split_on_weight "," b) as W.
  destruct (split_on "," b) as [|first rest]; [discriminate|].
  apply andb_true_iff in H as [H1 H2]. apply apa_tail_weight in H2.
  destruct first as [|a first]; [discriminate|]. simpl in W. lia.
Qed.

Lemma mla_full_len (w : string) : mla_full w = true -> 5 <= String.length w.
Proof.
  destruct w as [|c t]; simpl; [discriminate|].
  intros H. apply andb_true_iff in H as [_ H].
  destruct (strip_close t) as [b|] eqn:E; [|discriminate].
  rewrite (strip_close_spec t b E), string_length_app. simpl.
  unfold mla_body in H.
  apply andb_true_iff in H as [Ha H]. apply andb_true_iff in H as [Hs H].
  apply andb_true_iff in H as [Hd _].
  pose proof (skip_while_lt _ _ Ha). pose proof (skip_while_lt _ _ Hs).
  destruct (skip_while is_space (skip_while is_alpha b)); [discriminate|].
  simpl in *. lia.
Qed.

Lemma url_at_len (s w : string) : url_at s = Some w -> 8 <= String.length w.
Proof.
  intros H. destruct (url_at_spec s w H) as [_ [scheme [run [Hs [-> [Hr _]]]]]].
  rewrite string_length_app.
  destruct run; [congruence|]. destruct Hs as [->| ->]; simpl; lia.
Qed.

Lemma apa_at_prefix (s w : string) : apa_at s = Some w -> exists r, s = w ++ r.
Proof. apply match_at_prefix. Qed.

Lemma mla_at_prefix (s w : string) : mla_at s = Some w -> exists r, s = w ++ r.
Proof. apply match_at_prefix. Qed.

Lemma url_at_prefix (s w : string) : url_at s = Some w -> exists r, s = w ++ r.
Proof. intros H. apply (url_at_spec s w H). Qed.

End ScanFacts.

Module CitationExtra.
Import Regex Citation StringFacts RegexFacts ScanFacts.

(** Every APA or MLA citation reported is a full match of its pattern and
    occurs in the text; every URL occurs in the text and is [http://] or
    [https://] followed by a non-empty run without whitespace. *)
Theorem detected_items_occur (text w : string) :
  (In w (apa_citations text) -> apa_full w = true /\ contains w text = true)
  /\ (In w (mla_citations text) -> mla_full w = true /\ contains w text = true)
  /\ (In w (urls text) ->
        contains w text = true
        /\ exists scheme run, (scheme = "http://" \/ scheme = "https://")
             /\ w = scheme ++ run /\ run <> EmptyString
             /\ all_chars (fun c => negb (is_space c)) run = true).
Proof.
  split; [|split].
  - intros H. split; [exact (findall_full _ _ _ H)|].
    destruct (findall_occurs _ apa_at_prefix _ _ H) as [p [r E]].
    exact (occurs_contains _ _ _ _ E).
  - intros H. split; [exact (findall_full _ _ _ H)|].
    destruct (findall_occurs _ mla_at_prefix _ _ H) as [p [r E]].
    exact (occurs_contains _ _ _ _ E).
  - intros H. split.
    + destruct (findall_occurs _ url_at_prefix _ _ H) as [p [r E]].
      exact (occurs_contains _ _ _ _ E).
    + unfold urls, findall in H. destruct (scan_pos _ _ _ _ H) as [p [s' [_ E]]].
      exact (proj2 (url_at_spec _ _ E)).
Qed.

Lemma findall_count_bound (m : string -> option string) (L : nat)
    (Hm : forall s w, m s = Some w -> exists r, s = w ++ r)
    (HL : forall s w, m s = Some w -> L <= String.length w) (text : string) :
  L * List.length (findall m text) <= String.length text.
Proof.
  pose proof (scan_len m Hm text 0) as H. rewrite Nat.sub_0_r in H.
  enough (L * List.length (findall m text) <= list_sum (map String.length (findall m text)))
    by (unfold findall in *; lia).
  apply sum_lower_bound. intros w Hw.
  unfold findall in Hw. destruct (scan_pos _ _ _ _ Hw) as [p [s' [_ E]]].
  exact (HL _ _ E).
Qed.

(** Matches do not overlap, and the shortest APA citation ["(A,2020)"]
    and URL ["http://x"] have 8 characters, the shortest MLA citation
    ["(A 1)"] has 5: so the counts are bounded by the text's length. *)
Theorem citation_counts_bounded (text : string) :
  8 * apa_count (detect_citations text) <= String.length text
  /\ 5 * mla_count (detect_citations text) <= String.length text
  /\ 8 * url_count (detect_citations text) <= String.length text.
Proof.
  split; [|split]; cbn [apa_count mla_count url_count detect_citations];
    unfold apa_citations, mla_citations, urls.
  - apply findall_count_bound; [exact apa_at_prefix|].
    intros s w H. apply apa_full_len. exact (match_at_full _ _ _ H).
  - apply findall_count_bound; [exact mla_at_prefix|].
    intros s w H. apply mla_full_len. exact (match_at_full _ _ _ H).
  - apply findall_count_bound; [exact url_at_prefix|exact url_at_len].
Qed.

Lemma no_open_paren_no_match (full : string -> bool)
    (Hfull : forall w, full w = true -> exists t, w = String "(" t) (text : string) :
  has_char "(" text = false -> findall (match_at full) text = [].
Proof.
  intros H. destruct (findall (match_at full) text) as [|w ws] eqn:E; [reflexivity|].
  assert (Hin : In w (findall (match_at full) text)) by (rewrite E; left; reflexivity).
  destruct (findall_occurs _ (match_at_prefix full) _ _ Hin) as [p [r Ht]].
  destruct (Hfull w (findall_full _ _ _ Hin)) as [t ->].
  rewrite Ht, !has_char_app in H. simpl in H.
  rewrite orb_true_r in H. discriminate.
Qed.

Lemma full_opens (w : string) :
  apa_full w = true \/ mla_full w = true -> exists t, w = String "(" t.
Proof.
  destruct w as [|c t]; [intros [H|H]; discriminate|].
  intros H. exists t. f_equal.
  destruct H as [H|H]; simpl in H; apply andb_true_iff in H as [H _];
    apply Ascii.eqb_eq in H; exact H.
Qed.

(** A text without an opening parenthesis has no APA or MLA citation (so
    no recent source and density 0); a text without ["http"] has no URL. *)
Theorem no_paren_no_citations (text : string) :
  (has_char "(" text = false ->
     apa_count (detect_citations text) = 0
     /\ mla_count (detect_citations text) = 0
     /\ total_citations (detect_citations text) = 0
     /\ has_recent_sources (detect_citations text) = false
     /\ (citation_density (detect_citations text) == 0)%Q)
  /\ (contains "http" text = false -> url_count (detect_citations text) = 0).
Proof.
  split.
  - intros H.
    assert (Ha : apa_citations text = [])
      by (apply no_open_paren_no_match; [intros w Hw; apply full_opens; left; exact Hw|exact H]).
    assert (Hm : mla_citations text = [])
      by (apply no_open_paren_no_match; [intros w Hw; apply full_opens; right; exact Hw|exact H]).
    unfold detect_citations. rewrite Ha, Hm. simpl.
    repeat split.
  - intros H. simpl. destruct (urls text) as [|w ws] eqn:E; [reflexivity|].
    assert (Hin : In w (urls text)) by (rewrite E; left; reflexivity).
    destruct (findall_occurs _ url_at_prefix _ _ Hin) as [p [r Ht]].
    unfold urls, findall in Hin. destruct (scan_pos _ _ _ _ Hin) as [q [s' [_ Es]]].
    destruct (url_at_spec _ _ Es) as [_ [scheme [run [Hs [-> _]]]]].
    assert (Hc : contains "http" text = true).
    { rewrite Ht. apply contains_app_l. rewrite string_app_assoc.
      destruct Hs as [->| ->].
      - change ("http://" ++ run ++ r) with ("http" ++ ("://" ++ run ++ r)).
        apply contains_app_r, contains_self.
      - change ("https://" ++ run ++ r) with ("http" ++ ("s://" ++ run ++ r)).
        apply contains_app_r, contains_self. }
    congruence.
Qed.

Lemma no_paren_no_citations_witness :
  apa_count (detect_citations "Plain prose, 2020, no sources at all.") = 0
  /\ url_count (detect_citations "Plain prose, 2020, no sources at all.") = 0.
Proof.
  destruct (no_paren_no_citations "Plain prose, 2020, no sources at all.") as [H1 H2].
  split; [apply H1; reflexivity|apply H2; reflexivity].
Defined.

Lemma density_q_facts (a d : nat) : 1 <= d ->
  (0 <= inject_Z (Z.of_nat a) / inject_Z (Z.of_nat d) * inject_Z 1000)%Q
  /\ ((inject_Z (Z.of_nat a) / inject_Z (Z.of_nat d) * inject_Z 1000 == 0)%Q <-> a = 0).
Proof.
  intros Hd. destruct (Z.of_nat d) as [|p|p] eqn:E; [lia| |lia].
  unfold Qle, Qeq, Qdiv, Qmult, Qinv, inject_Z. simpl.
  split; [lia|]. split; lia.
Qed.

(** The density is never negative, and it is 0 exactly when the text has
    no APA or MLA citation. *)
Theorem density_zero_iff_no_citation (text : string) :
  (0 <= citation_density (detect_citations text))%Q
  /\ ((citation_density (detect_citations text) == 0)%Q
      <-> total_citations (detect_citations text) = 0).
Proof.
  apply density_q_facts. lia.
Qed.

End CitationExtra.

(** ** Further properties of the display and the page *)
Module DisplayExtra.
Import Py Display Scenarios DisplaySpec.

Lemma getitem_pair_ok (q : jvalue) :
  (exists x y, getitem_key q "question" = Ok x /\ getitem_key q "purpose" = Ok y)
  <-> well_formed_question q.
Proof.
  split.
  - intros [x [y [Hx Hy]]]. destruct q; try discriminate Hx.
    unfold getitem_key in Hx, Hy.
    destruct (dict_lookup "question" kvs) eqn:E1; [|discriminate].
    destruct (dict_lookup "purpose" kvs) eqn:E2; [|discriminate].
    exists kvs, j, j0. auto.
  - intros [kvs [x [y [-> [Hx Hy]]]]]. exists x, y. unfold getitem_key. rewrite Hx, Hy. auto.
Qed.

Lemma render_questions_ok_iff (qs : list jvalue) (i : nat) :
  (exists items, render_questions qs i = Ok items) <-> Forall well_formed_question qs.
Proof.
  split.
  - revert i. induction qs as [|q rest IH]; intros i [items H]; [constructor|].
    simpl in H.
    destruct (getitem_key q "question") as [x|] eqn:E1; [|discriminate].
    destruct (getitem_key q "purpose") as [y|] eqn:E2; [|discriminate].
    destruct (render_questions rest (S i)) as [its|] eqn:E3; [|discriminate].
    constructor.
    + apply getitem_pair_ok. eauto.
    + apply (IH (S i)). eauto.
  - intros H. destruct (render_questions_wf qs H i) as [items [E _]]. eauto.
Qed.

Lemma display_results_object (json_loads : jvalue -> result jvalue) (payload : jvalue)
    (kvs : list (string * jvalue)) :
  json_loads payload = Ok (JObj kvs) ->
  display_results json_loads payload = render (questions_of kvs) (reflection_of kvs).
Proof. intros H. unfold display_results, load_questions. rewrite H. reflexivity. Qed.

(** For a payload that decodes to an object, the page renders exactly when
    its [questions] (default: empty list) is iterable and every entry is
    an object with [question] and [purpose]; otherwise the display loop,
    which is outside the [try], raises. *)
Theorem display_ok_iff_wellformed (json_loads : jvalue -> result jvalue) (payload : jvalue)
    (kvs : list (string * jvalue)) (Hload : json_loads payload = Ok (JObj kvs)) :
  ((exists items, display_results json_loads payload = Ok items)
     <-> exists qs, py_iter (questions_of kvs) = Ok qs /\ Forall well_formed_question qs)
  /\ (~ (exists qs, py_iter (questions_of kvs) = Ok qs /\ Forall well_formed_question qs) ->
        exists e, display_results json_loads payload = Exc e).
Proof.
  rewrite (display_results_object _ _ _ Hload). unfold render.
  assert (Iff : (exists items, rbind (py_iter (questions_of kvs)) (fun qs =>
                   rbind (render_questions qs 1) (fun items =>
                   Ok (app items (if py_truthy (reflection_of kvs)
                                  then [DReflection (reflection_of kvs)] else [])))) = Ok items)
                <-> exists qs, py_iter (questions_of kvs) = Ok qs
                               /\ Forall well_formed_question qs).
  { destruct (py_iter (questions_of kvs)) as [qs|e]; simpl.
    - pose proof (render_questions_ok_iff qs 1) as R.
      destruct (render_questions qs 1) as [its|e]; simpl.
      + split; [intros _|intros _; eauto].
        exists qs. split; [reflexivity|]. apply R. eauto.
      + split; [intros [? H]; discriminate|].
        intros [qs' [Hq Hf]]. injection Hq as <-. apply R in Hf as [? H]. discriminate.
    - split; [intros [? H]; discriminate|intros [qs' [H _]]; discriminate]. }
  split; [exact Iff|].
  intros Hn. destruct (rbind (py_iter (questions_of kvs)) _) as [items|e] eqn:E.
  - exfalso. apply Hn, Iff. eauto.
  - eauto.
Qed.

Lemma display_ok_iff_wellformed_witness :
  exists e, display_results
    (decoder_for (JObj [("questions", JArr [JObj [("question", JStr "Why?")]])]))
    (JStr (json_dumps (JObj [("questions", JArr [JObj [("question", JStr "Why?")]])])))
    = Exc e.
Proof.
  refine (proj2 (display_ok_iff_wellformed
    (decoder_for (JObj [("questions", JArr [JObj [("question", JStr "Why?")]])]))
    (JStr (json_dumps (JObj [("questions", JArr [JObj [("question", JStr "Why?")]])])))
    [("questions", JArr [JObj [("question", JStr "Why?")]])] _) _).
  - vm_compute. reflexivity.
  - intros [qs [H Hf]]. vm_compute in H. injection H as <-.
    inversion Hf as [|q rest Hq _ Heq]. subst.
    destruct Hq as [kvs [x [y [Hk [_ Hy]]]]]. injection Hk as <-. discriminate Hy.
Defined.

(** A payload that decodes to a JSON value other than an object ([.get]
    raises [AttributeError] inside the [try]) shows the fixed fallback. *)
Theorem non_object_payload_fallback (json_loads : jvalue -> result jvalue) (payload v : jvalue)
    (Hload : json_loads payload = Ok v) (Hv : forall kvs, v <> JObj kvs) :
  display_results json_loads payload = Ok fallback_display.
Proof.
  unfold display_results, load_questions. rewrite Hload.
  destruct v; try reflexivity. exfalso. eapply Hv. reflexivity.
Qed.

Lemma non_object_payload_fallback_witness :
  display_results (decoder_for (JArr [JStr "What is your thesis?"]))
    (JStr (json_dumps (JArr [JStr "What is your thesis?"]))) = Ok fallback_display.
Proof.
  apply (non_object_payload_fallback _ _ (JArr [JStr "What is your thesis?"])).
  - vm_compute. reflexivity.
  - intros kvs H. discriminate H.
Defined.

End DisplayExtra.

Module PageExtra.
Import Py Citation Dispatcher Display App Scenarios DispatcherSpec.

Lemma all_chars_skip (p : ascii -> bool) (s : string) :
  all_chars p (skip_while p s) = all_chars p s.
Proof.
  induction s as [|c t IH]; [reflexivity|].
  simpl. destruct (p c) eqn:E; [exact IH|]. simpl. rewrite E. reflexivity.
Qed.

Lemma skip_empty_iff (p : ascii -> bool) (s : string) :
  skip_while p s = EmptyString <-> all_chars p s = true.
Proof.
  split.
  - intros H. rewrite <- all_chars_skip, H. reflexivity.
  - induction s as [|c t IH]; [reflexivity|].
    simpl. destruct (p c) eqn:E; simpl; intros H; [apply IH, H|discriminate].
Qed.

Lemma all_chars_list (p : ascii -> bool) (s : string) :
  all_chars p s = forallb p (list_ascii_of_string s).
Proof. induction s as [|c t IH]; simpl; [reflexivity|]. rewrite IH. reflexivity. Qed.

Lemma forallb_rev {A} (p : A -> bool) (l : list A) : forallb p (rev l) = forallb p l.
Proof.
  induction l as [|x l IH]; [reflexivity|].
  simpl. rewrite forallb_app, IH. simpl. rewrite andb_true_r, andb_comm. reflexivity.
Qed.

Lemma all_chars_rev (p : ascii -> bool) (s : string) :
  all_chars p (string_rev s) = all_chars p s.
Proof.
  unfold string_rev. rewrite !all_chars_list, list_ascii_of_string_of_list_ascii.
  apply forallb_rev.
Qed.

Lemma string_rev_empty (s : string) : string_rev s = EmptyString <-> s = EmptyString.
Proof.
  destruct s as [|c t]; [split; reflexivity|].
  split; [|discriminate]. unfold string_rev. simpl.
  destruct (app (rev (list_ascii_of_string t)) [c]) as [|b l] eqn:E.
  - apply app_eq_nil in E as [_ E]. discriminate.
  - discriminate.
Qed.

(** [user_input.strip() == ""] holds exactly for the inputs made of
    whitespace only (the empty input included). *)
Lemma py_strip_empty_iff (s : string) :
  py_strip s = EmptyString <-> all_chars is_space s = true.
Proof.
  unfold py_strip. rewrite string_rev_empty, skip_empty_iff, all_chars_rev, all_chars_skip.
  reflexivity.
Qed.

(** The button handler: an input of whitespace only gives the warning and
    leaves the session as it was, with no call to the Completion Service;
    any other input makes exactly two calls, the question request and
    then the citation request built from [detect_citations] of the same
    text, and stores a completed analysis with that citation report. *)
Theorem input_gate (completion : option string -> request -> result jvalue)
    (env : list (string * string)) (input focus : string) (st : session) :
  (all_chars is_space input = true ->
     start_guided_analysis completion env input focus st
     = ([EvWarning empty_input_warning], Ok st))
  /\ (all_chars is_space input = false ->
     exists st',
       start_guided_analysis completion env input focus st
       = ([EvCall (read_api_key env) (socratic_request input focus);
           EvCall (read_api_key env) (citation_request input (detect_citations input))],
          Ok st')
       /\ analysis_complete st' = true
       /\ citation_data st' = Some (detect_citations input)).
Proof.
  split; intros H.
  - unfold start_guided_analysis. rewrite (proj2 (py_strip_empty_iff input) H). reflexivity.
  - assert (E : String.eqb (py_strip input) EmptyString = false).
    { destruct (String.eqb (py_strip input) EmptyString) eqn:E; [|reflexivity].
      apply String.eqb_eq, py_strip_empty_iff in E. congruence. }
    unfold start_guided_analysis. rewrite E.
    rewrite generate_socratic_questions_eq, analyze_citations_with_ai_eq.
    eexists. split; [reflexivity|]. split; reflexivity.
Qed.

Lemma input_gate_witness :
  start_guided_analysis unreachable_service [] "  " "Clarity" initial_session
    = ([EvWarning empty_input_warning], Ok initial_session)
  /\ exists st',
       start_guided_analysis unreachable_service [] "Draft." "Clarity" initial_session
       = ([EvCall None (socratic_request "Draft." "Clarity");
           EvCall None (citation_request "Draft." (detect_citations "Draft."))], Ok st')
       /\ analysis_complete st' = true
       /\ citation_data st' = Some (detect_citations "Draft.").
Proof.
  split.
  - apply (proj1 (input_gate unreachable_service [] "  " "Clarity" initial_session)).
    reflexivity.
  - apply (proj2 (input_gate unreachable_service [] "Draft." "Clarity" initial_session)).
    reflexivity.
Defined.

(** When the question request fails, the stored [questions_data] is the
    JSON text of the generator's own fallback; read back by the display
    step it shows the generator's three questions and its reflection,
    not the display step's fallback. *)
Theorem socratic_failure_display (completion : option string -> request -> result jvalue)
    (json_loads : jvalue -> result jvalue)
    (env : list (string * string)) (input focus : string) (st : session) (e : exn)
    (Hinput : all_chars is_space input = false)
    (Hfail : rbind (completion (read_api_key env) (socratic_request input focus))
                   extract_content = Exc e)
    (Hdec : json_loads (JStr (json_dumps socratic_fallback)) = Ok socratic_fallback) :
  exists st',
    snd (start_guided_analysis completion env input focus st) = Ok st'
    /\ questions_data st' = Some (JStr (json_dumps socratic_fallback))
    /\ display_results json_loads (JStr (json_dumps socratic_fallback))
       = Ok [ DQuestion 1
                (JStr "What is the main argument you're trying to make in this piece?")
                (JStr "Helps identify thesis clarity");
              DQuestion 2
                (JStr "Who is your intended audience and how does that shape your word choices?")
                (JStr "Develops audience awareness");
              DQuestion 3 (JStr "What evidence best supports your strongest point?")
                (JStr "Encourages critical evaluation of support");
              DReflection
                (JStr "How well does this piece achieve what you set out to accomplish?") ].
Proof.
  assert (E : String.eqb (py_strip input) EmptyString = false).
  { destruct (String.eqb (py_strip input) EmptyString) eqn:E; [|reflexivity].
    apply String.eqb_eq, py_strip_empty_iff in E. congruence. }
  unfold start_guided_analysis. rewrite E.
  rewrite generate_socratic_questions_eq, analyze_citations_with_ai_eq, Hfail.
  eexists. split; [reflexivity|]. split; [reflexivity|].
  unfold display_results, load_questions. rewrite Hdec. reflexivity.
Qed.

Lemma socratic_failure_display_witness :
  exists st',
    snd (start_guided_analysis unreachable_service [] "My essay." "Clarity" initial_session)
      = Ok st'
    /\ questions_data st' = Some (JStr (json_dumps socratic_fallback))
    /\ display_results (decoder_for socratic_fallback) (JStr (json_dumps socratic_fallback))
       = Ok [ DQuestion 1
                (JStr "What is the main argument you're trying to make in this piece?")
                (JStr "Helps identify thesis clarity");
              DQuestion 2
                (JStr "Who is your intended audience and how does that shape your word choices?")
                (JStr "Develops audience awareness");
              DQuestion 3 (JStr "What evidence best supports your strongest point?")
                (JStr "Encourages critical evaluation of support");
              DReflection
                (JStr "How well does this piece achieve what you set out to accomplish?") ].
Proof.
  apply (socratic_failure_display unreachable_service (decoder_for socratic_fallback)
           [] "My essay." "Clarity" initial_session APIConnectionError).
  - reflexivity.
  - reflexivity.
  - vm_compute. reflexivity.
Defined.

(** [response["choices"][0]["message"]["content"]] succeeds exactly on an
    object whose [choices] is a list starting with an object whose
    [message] is an object with a [content]; that content is what each
    dispatcher returns, unchanged, after its single call. *)
Theorem dispatch_passes_content (completion : option string -> request -> result jvalue)
    (api_key : option string) (text focus : string) (cd : CitationReport) :
  (forall resp c, extract_content resp = Ok c <->
     exists rk ck mk rest, resp = JObj rk
       /\ dict_lookup "choices" rk = Some (JArr (JObj ck :: rest))
       /\ dict_lookup "message" ck = Some (JObj mk)
       /\ dict_lookup "content" mk = Some c)
  /\ (forall resp c, completion api_key (socratic_request text focus) = Ok resp ->
        extract_content resp = Ok c ->
        generate_socratic_questions completion api_key text focus
        = ([EvCall api_key (socratic_request text focus)], Ok c))
  /\ (forall resp c, completion api_key (citation_request text cd) = Ok resp ->
        extract_content resp = Ok c ->
        analyze_citations_with_ai completion api_key text cd
        = ([EvCall api_key (citation_request text cd)], Ok c)).
Proof.
  split; [|split].
  - intros resp c. split.
    + unfold extract_content, rbind.
      destruct resp as [| | | | |rk]; try discriminate. cbn [getitem_key].
      destruct (dict_lookup "choices" rk) as [chs|] eqn:Ech; [|discriminate].
      destruct chs as [| | |s|l|kvs]; cbn [getitem_idx]; try discriminate.
      * destruct (String.get 0 s); discriminate.
      * destruct l as [|x rest]; cbn [nth_error]; [discriminate|].
        destruct x as [| | | | |ck]; cbn [getitem_key]; try discriminate.
        destruct (dict_lookup "message" ck) as [m|] eqn:Em; [|discriminate].
        destruct m as [| | | | |mk]; cbn [getitem_key]; try discriminate.
        destruct (dict_lookup "content" mk) as [c'|] eqn:Ec; [|discriminate].
        intros H. injection H as <-. exists rk, ck, mk, rest. auto.
    + intros [rk [ck [mk [rest [-> [H1 [H2 H3]]]]]]].
      unfold extract_content, rbind, getitem_key. rewrite H1. cbn. rewrite H2, H3. reflexivity.
  - intros resp c Hr Hc. rewrite generate_socratic_questions_eq, Hr. cbn [rbind].
    rewrite Hc. reflexivity.
  - intros resp c Hr Hc. rewrite analyze_citations_with_ai_eq, Hr. cbn [rbind].
    rewrite Hc. reflexivity.
Qed.

End PageExtra.
